(** * libethcore/Transaction.h

    A shallow embedding of the transaction entity of [libethcore]: the
    propagation marker [NodeTransactionMarker], the [Transaction] record with
    its equality, signature predicates and setters, and the cache handling of
    [rlp].  Member functions whose bodies live outside the header ([sender],
    [safeSender], [decode]) are modelled from the design document and are
    marked as such. *)

From Stdlib Require Import NArith ZArith List Bool Lia.
From stdpp Require Import base decidable numbers option list gmap sets.
Import ListNotations.

Local Open Scope N_scope.

(** ** Basic types *)

(** [u256], [h256], [h512] and [Address] (160 bits) are unsigned fixed-width
    values.  The header only stores, compares and zero-tests them, so they are
    carried as naturals; no arithmetic that could wrap is performed here. *)
Definition u256 := N.
Definition h256 := N.
Definition h512 := N.
Definition Address := N.

(** [bytes] is [std::vector<byte>]. *)
Definition bytes := list Byte.byte.

#[global] Instance byte_eq_dec : EqDecision Byte.byte := Byte.byte_eq_dec.

(** Pipeline notation: statements of a member function are applied to the
    object from left to right, in source order. *)
Notation "t |> f" := (f t) (at level 45, left associativity, only parsing).

(** [enum IncludeSignature]. *)
Inductive IncludeSignature : Set :=
| WithoutSignature   (* = 0: do not include a signature *)
| WithSignature.     (* = 1: do include a signature *)

(** [enum class CheckTransaction]. *)
Inductive CheckTransaction : Set :=
| CheckNone
| Cheap
| Everything.

Definition c_fieldCountRC1WithOutSig : nat := 7.
Definition c_fieldCountRC2WithOutSig : nat := 10.
Definition c_sigCount : nat := 3.

(** [enum Transaction::Type]. *)
Inductive TxType : Set :=
| NullTransaction
| ContractCreation
| MessageCall.

#[global] Instance TxType_eq_dec : EqDecision TxType.
Proof. solve_decision. Defined.

(** Modelled from the spec: [crypto::Signature] is declared in
    libdevcrypto/Common.h, outside the header verified here.  The header
    reads the two scalars [r] and [s] of the object ([m_vrs->r], [m_vrs->s]);
    the design document lists the three signature fields [v, r, s]. *)
Record Signature : Set := mkSignature {
  sig_v : N;
  sig_r : u256;
  sig_s : u256
}.

#[global] Instance Signature_eq_dec : EqDecision Signature.
Proof. solve_decision. Defined.

(** [RPCCallback] is a [std::function]; the header only stores it.  It is
    either empty or an opaque handle to the callable. *)
Definition RPCCallback := option N.

(** ** struct NodeTransactionMarker *)

(** The mutex [x_nodeListWithTheTransaction] only serialises the calls; each
    member function is modelled by its effect on the guarded [std::set]. *)
Module NodeTransactionMarker.

Record t : Type := mk {
  m_nodeListWithTheTransaction : gset h512
}.

(** [NodeTransactionMarker() = default] *)
Definition new : t := {| m_nodeListWithTheTransaction := ∅ |}.

(** [std::set::insert] *)
Definition set_insert (n : h512) (s : gset h512) : gset h512 := {[ n ]} ∪ s.

(** [std::set::count]: the number of elements equal to the key, 0 or 1. *)
Definition set_count (n : h512) (s : gset h512) : nat :=
  if decide (n ∈ s) then 1%nat else 0%nat.

(** [std::set::empty] *)
Definition set_empty (s : gset h512) : bool := bool_decide (s = ∅).

Definition appendNodeContainsTransaction (_node : h512) (m : t) : t :=
  {| m_nodeListWithTheTransaction :=
       set_insert _node (m_nodeListWithTheTransaction m) |}.

(** The range-for loop inserts the nodes in iteration order. *)
Definition appendNodeListContainTransaction (_nodeList : list h512) (m : t) : t :=
  {| m_nodeListWithTheTransaction :=
       fold_left (fun s node => set_insert node s) _nodeList
                 (m_nodeListWithTheTransaction m) |}.

(** The [size_t] returned by [count] is converted to [bool]. *)
Definition isTheNodeContainsTransaction (_node : h512) (m : t) : bool :=
  negb (Nat.eqb (set_count _node (m_nodeListWithTheTransaction m)) 0).

Definition isKnownBySomeone (m : t) : bool :=
  negb (set_empty (m_nodeListWithTheTransaction m)).

Definition clear (m : t) : t := {| m_nodeListWithTheTransaction := ∅ |}.

End NodeTransactionMarker.

(** ** class Transaction *)

Record Transaction : Type := mkTransaction {
  m_type : TxType;
  m_nonce : u256;
  m_value : u256;
  m_receiveAddress : Address;
  m_gasPrice : u256;
  m_gas : u256;
  m_data : bytes;
  m_vrs : option Signature;       (* shared_ptr: [None] is the null pointer *)
  m_hashWith : h256;              (* mutable cache *)
  m_sender : Address;             (* mutable cache *)
  m_blockLimit : u256;
  m_importTime : u256;
  m_rpcCallback : RPCCallback;
  m_rlpBuffer : bytes;
  m_chainId : u256;
  m_groupId : u256;
  m_extraData : bytes;
  m_rpcTx : bool;
  m_synced : bool;
  m_nodeTransactionMarker : NodeTransactionMarker.t
}.

(** Assignment to a single member. *)
Definition with_m_type (x : TxType) (t : Transaction) : Transaction :=
  {| m_type := x; m_nonce := m_nonce t; m_value := m_value t;
     m_receiveAddress := m_receiveAddress t; m_gasPrice := m_gasPrice t;
     m_gas := m_gas t; m_data := m_data t; m_vrs := m_vrs t;
     m_hashWith := m_hashWith t; m_sender := m_sender t;
     m_blockLimit := m_blockLimit t; m_importTime := m_importTime t;
     m_rpcCallback := m_rpcCallback t; m_rlpBuffer := m_rlpBuffer t;
     m_chainId := m_chainId t; m_groupId := m_groupId t;
     m_extraData := m_extraData t; m_rpcTx := m_rpcTx t;
     m_synced := m_synced t;
     m_nodeTransactionMarker := m_nodeTransactionMarker t |}.

Definition with_m_nonce (x : u256) (t : Transaction) : Transaction :=
  {| m_type := m_type t; m_nonce := x; m_value := m_value t;
     m_receiveAddress := m_receiveAddress t; m_gasPrice := m_gasPrice t;
     m_gas := m_gas t; m_data := m_data t; m_vrs := m_vrs t;
     m_hashWith := m_hashWith t; m_sender := m_sender t;
     m_blockLimit := m_blockLimit t; m_importTime := m_importTime t;
     m_rpcCallback := m_rpcCallback t; m_rlpBuffer := m_rlpBuffer t;
     m_chainId := m_chainId t; m_groupId := m_groupId t;
     m_extraData := m_extraData t; m_rpcTx := m_rpcTx t;
     m_synced := m_synced t;
     m_nodeTransactionMarker := m_nodeTransactionMarker t |}.

Definition with_m_receiveAddress (x : Address) (t : Transaction) : Transaction :=
  {| m_type := m_type t; m_nonce := m_nonce t; m_value := m_value t;
     m_receiveAddress := x; m_gasPrice := m_gasPrice t; m_gas := m_gas t;
     m_data := m_data t; m_vrs := m_vrs t; m_hashWith := m_hashWith t;
     m_sender := m_sender t; m_blockLimit := m_blockLimit t;
     m_importTime := m_importTime t; m_rpcCallback := m_rpcCallback t;
     m_rlpBuffer := m_rlpBuffer t; m_chainId := m_chainId t;
     m_groupId := m_groupId t; m_extraData := m_extraData t;
     m_rpcTx := m_rpcTx t; m_synced := m_synced t;
     m_nodeTransactionMarker := m_nodeTransactionMarker t |}.

Definition with_m_data (x : bytes) (t : Transaction) : Transaction :=
  {| m_type := m_type t; m_nonce := m_nonce t; m_value := m_value t;
     m_receiveAddress := m_receiveAddress t; m_gasPrice := m_gasPrice t;
     m_gas := m_gas t; m_data := x; m_vrs := m_vrs t;
     m_hashWith := m_hashWith t; m_sender := m_sender t;
     m_blockLimit := m_blockLimit t; m_importTime := m_importTime t;
     m_rpcCallback := m_rpcCallback t; m_rlpBuffer := m_rlpBuffer t;
     m_chainId := m_chainId t; m_groupId := m_groupId t;
     m_extraData := m_extraData t; m_rpcTx := m_rpcTx t;
     m_synced := m_synced t;
     m_nodeTransactionMarker := m_nodeTransactionMarker t |}.

Definition with_m_vrs (x : option Signature) (t : Transaction) : Transaction :=
  {| m_type := m_type t; m_nonce := m_nonce t; m_value := m_value t;
     m_receiveAddress := m_receiveAddress t; m_gasPrice := m_gasPrice t;
     m_gas := m_gas t; m_data := m_data t; m_vrs := x;
     m_hashWith := m_hashWith t; m_sender := m_sender t;
     m_blockLimit := m_blockLimit t; m_importTime := m_importTime t;
     m_rpcCallback := m_rpcCallback t; m_rlpBuffer := m_rlpBuffer t;
     m_chainId := m_chainId t; m_groupId := m_groupId t;
     m_extraData := m_extraData t; m_rpcTx := m_rpcTx t;
     m_synced := m_synced t;
     m_nodeTransactionMarker := m_nodeTransactionMarker t |}.

Definition with_m_hashWith (x : h256) (t : Transaction) : Transaction :=
  {| m_type := m_type t; m_nonce := m_nonce t; m_value := m_value t;
     m_receiveAddress := m_receiveAddress t; m_gasPrice := m_gasPrice t;
     m_gas := m_gas t; m_data := m_data t; m_vrs := m_vrs t; m_hashWith := x;
     m_sender := m_sender t; m_blockLimit := m_blockLimit t;
     m_importTime := m_importTime t; m_rpcCallback := m_rpcCallback t;
     m_rlpBuffer := m_rlpBuffer t; m_chainId := m_chainId t;
     m_groupId := m_groupId t; m_extraData := m_extraData t;
     m_rpcTx := m_rpcTx t; m_synced := m_synced t;
     m_nodeTransactionMarker := m_nodeTransactionMarker t |}.

Definition with_m_sender (x : Address) (t : Transaction) : Transaction :=
  {| m_type := m_type t; m_nonce := m_nonce t; m_value := m_value t;
     m_receiveAddress := m_receiveAddress t; m_gasPrice := m_gasPrice t;
     m_gas := m_gas t; m_data := m_data t; m_vrs := m_vrs t;
     m_hashWith := m_hashWith t; m_sender := x;
     m_blockLimit := m_blockLimit t; m_importTime := m_importTime t;
     m_rpcCallback := m_rpcCallback t; m_rlpBuffer := m_rlpBuffer t;
     m_chainId := m_chainId t; m_groupId := m_groupId t;
     m_extraData := m_extraData t; m_rpcTx := m_rpcTx t;
     m_synced := m_synced t;
     m_nodeTransactionMarker := m_nodeTransactionMarker t |}.

Definition with_m_blockLimit (x : u256) (t : Transaction) : Transaction :=
  {| m_type := m_type t; m_nonce := m_nonce t; m_value := m_value t;
     m_receiveAddress := m_receiveAddress t; m_gasPrice := m_gasPrice t;
     m_gas := m_gas t; m_data := m_data t; m_vrs := m_vrs t;
     m_hashWith := m_hashWith t; m_sender := m_sender t; m_blockLimit := x;
     m_importTime := m_importTime t; m_rpcCallback := m_rpcCallback t;
     m_rlpBuffer := m_rlpBuffer t; m_chainId := m_chainId t;
     m_groupId := m_groupId t; m_extraData := m_extraData t;
     m_rpcTx := m_rpcTx t; m_synced := m_synced t;
     m_nodeTransactionMarker := m_nodeTransactionMarker t |}.

Definition with_m_importTime (x : u256) (t : Transaction) : Transaction :=
  {| m_type := m_type t; m_nonce := m_nonce t; m_value := m_value t;
     m_receiveAddress := m_receiveAddress t; m_gasPrice := m_gasPrice t;
     m_gas := m_gas t; m_data := m_data t; m_vrs := m_vrs t;
     m_hashWith := m_hashWith t; m_sender := m_sender t;
     m_blockLimit := m_blockLimit t; m_importTime := x;
     m_rpcCallback := m_rpcCallback t; m_rlpBuffer := m_rlpBuffer t;
     m_chainId := m_chainId t; m_groupId := m_groupId t;
     m_extraData := m_extraData t; m_rpcTx := m_rpcTx t;
     m_synced := m_synced t;
     m_nodeTransactionMarker := m_nodeTransactionMarker t |}.

Definition with_m_rpcCallback (x : RPCCallback) (t : Transaction) : Transaction :=
  {| m_type := m_type t; m_nonce := m_nonce t; m_value := m_value t;
     m_receiveAddress := m_receiveAddress t; m_gasPrice := m_gasPrice t;
     m_gas := m_gas t; m_data := m_data t; m_vrs := m_vrs t;
     m_hashWith := m_hashWith t; m_sender := m_sender t;
     m_blockLimit := m_blockLimit t; m_importTime := m_importTime t;
     m_rpcCallback := x; m_rlpBuffer := m_rlpBuffer t;
     m_chainId := m_chainId t; m_groupId := m_groupId t;
     m_extraData := m_extraData t; m_rpcTx := m_rpcTx t;
     m_synced := m_synced t;
     m_nodeTransactionMarker := m_nodeTransactionMarker t |}.

Definition with_m_rlpBuffer (x : bytes) (t : Transaction) : Transaction :=
  {| m_type := m_type t; m_nonce := m_nonce t; m_value := m_value t;
     m_receiveAddress := m_receiveAddress t; m_gasPrice := m_gasPrice t;
     m_gas := m_gas t; m_data := m_data t; m_vrs := m_vrs t;
     m_hashWith := m_hashWith t; m_sender := m_sender t;
     m_blockLimit := m_blockLimit t; m_importTime := m_importTime t;
     m_rpcCallback := m_rpcCallback t; m_rlpBuffer := x;
     m_chainId := m_chainId t; m_groupId := m_groupId t;
     m_extraData := m_extraData t; m_rpcTx := m_rpcTx t;
     m_synced := m_synced t;
     m_nodeTransactionMarker := m_nodeTransactionMarker t |}.

Definition with_m_chainId (x : u256) (t : Transaction) : Transaction :=
  {| m_type := m_type t; m_nonce := m_nonce t; m_value := m_value t;
     m_receiveAddress := m_receiveAddress t; m_gasPrice := m_gasPrice t;
     m_gas := m_gas t; m_data := m_data t; m_vrs := m_vrs t;
     m_hashWith := m_hashWith t; m_sender := m_sender t;
     m_blockLimit := m_blockLimit t; m_importTime := m_importTime t;
     m_rpcCallback := m_rpcCallback t; m_rlpBuffer := m_rlpBuffer t;
     m_chainId := x; m_groupId := m_groupId t; m_extraData := m_extraData t;
     m_rpcTx := m_rpcTx t; m_synced := m_synced t;
     m_nodeTransactionMarker := m_nodeTransactionMarker t |}.

Definition with_m_groupId (x : u256) (t : Transaction) : Transaction :=
  {| m_type := m_type t; m_nonce := m_nonce t; m_value := m_value t;
     m_receiveAddress := m_receiveAddress t; m_gasPrice := m_gasPrice t;
     m_gas := m_gas t; m_data := m_data t; m_vrs := m_vrs t;
     m_hashWith := m_hashWith t; m_sender := m_sender t;
     m_blockLimit := m_blockLimit t; m_importTime := m_importTime t;
     m_rpcCallback := m_rpcCallback t; m_rlpBuffer := m_rlpBuffer t;
     m_chainId := m_chainId t; m_groupId := x; m_extraData := m_extraData t;
     m_rpcTx := m_rpcTx t; m_synced := m_synced t;
     m_nodeTransactionMarker := m_nodeTransactionMarker t |}.

Definition with_m_rpcTx (x : bool) (t : Transaction) : Transaction :=
  {| m_type := m_type t; m_nonce := m_nonce t; m_value := m_value t;
     m_receiveAddress := m_receiveAddress t; m_gasPrice := m_gasPrice t;
     m_gas := m_gas t; m_data := m_data t; m_vrs := m_vrs t;
     m_hashWith := m_hashWith t; m_sender := m_sender t;
     m_blockLimit := m_blockLimit t; m_importTime := m_importTime t;
     m_rpcCallback := m_rpcCallback t; m_rlpBuffer := m_rlpBuffer t;
     m_chainId := m_chainId t; m_groupId := m_groupId t;
     m_extraData := m_extraData t; m_rpcTx := x; m_synced := m_synced t;
     m_nodeTransactionMarker := m_nodeTransactionMarker t |}.

Definition with_m_synced (x : bool) (t : Transaction) : Transaction :=
  {| m_type := m_type t; m_nonce := m_nonce t; m_value := m_value t;
     m_receiveAddress := m_receiveAddress t; m_gasPrice := m_gasPrice t;
     m_gas := m_gas t; m_data := m_data t; m_vrs := m_vrs t;
     m_hashWith := m_hashWith t; m_sender := m_sender t;
     m_blockLimit := m_blockLimit t; m_importTime := m_importTime t;
     m_rpcCallback := m_rpcCallback t; m_rlpBuffer := m_rlpBuffer t;
     m_chainId := m_chainId t; m_groupId := m_groupId t;
     m_extraData := m_extraData t; m_rpcTx := m_rpcTx t; m_synced := x;
     m_nodeTransactionMarker := m_nodeTransactionMarker t |}.

Definition with_m_nodeTransactionMarker (x : NodeTransactionMarker.t) (t : Transaction) : Transaction :=
  {| m_type := m_type t; m_nonce := m_nonce t; m_value := m_value t;
     m_receiveAddress := m_receiveAddress t; m_gasPrice := m_gasPrice t;
     m_gas := m_gas t; m_data := m_data t; m_vrs := m_vrs t;
     m_hashWith := m_hashWith t; m_sender := m_sender t;
     m_blockLimit := m_blockLimit t; m_importTime := m_importTime t;
     m_rpcCallback := m_rpcCallback t; m_rlpBuffer := m_rlpBuffer t;
     m_chainId := m_chainId t; m_groupId := m_groupId t;
     m_extraData := m_extraData t; m_rpcTx := m_rpcTx t;
     m_synced := m_synced t; m_nodeTransactionMarker := x |}.

(** [Transaction() {}]: the null transaction. *)
Definition Transaction_null : Transaction :=
  {| m_type := NullTransaction; m_nonce := 0; m_value := 0;
     m_receiveAddress := 0; m_gasPrice := 0; m_gas := 0; m_data := [];
     m_vrs := None; m_hashWith := 0; m_sender := 0; m_blockLimit := 0;
     m_importTime := 0; m_rpcCallback := None; m_rlpBuffer := [];
     m_chainId := 0; m_groupId := 0; m_extraData := []; m_rpcTx := false;
     m_synced := false;
     m_nodeTransactionMarker := NodeTransactionMarker.new |}.

(** The unsigned message-call constructor. *)
Definition Transaction_call (_value _gasPrice _gas : u256) (_dest : Address)
    (_data : bytes) (_nonce _chainId _groupId : u256) : Transaction :=
  {| m_type := MessageCall; m_nonce := _nonce; m_value := _value;
     m_receiveAddress := _dest; m_gasPrice := _gasPrice; m_gas := _gas;
     m_data := _data; m_vrs := None; m_hashWith := 0; m_sender := 0;
     m_blockLimit := 0; m_importTime := 0; m_rpcCallback := None;
     m_rlpBuffer := []; m_chainId := _chainId; m_groupId := _groupId;
     m_extraData := []; m_rpcTx := false; m_synced := false;
     m_nodeTransactionMarker := NodeTransactionMarker.new |}.

(** The unsigned contract-creation constructor. *)
Definition Transaction_create (_value _gasPrice _gas : u256) (_data : bytes)
    (_nonce _chainId _groupId : u256) : Transaction :=
  {| m_type := ContractCreation; m_nonce := _nonce; m_value := _value;
     m_receiveAddress := 0; m_gasPrice := _gasPrice; m_gas := _gas;
     m_data := _data; m_vrs := None; m_hashWith := 0; m_sender := 0;
     m_blockLimit := 0; m_importTime := 0; m_rpcCallback := None;
     m_rlpBuffer := []; m_chainId := _chainId; m_groupId := _groupId;
     m_extraData := []; m_rpcTx := false; m_synced := false;
     m_nodeTransactionMarker := NodeTransactionMarker.new |}.

(** [operator==] *)
Definition Transaction_eq (a _c : Transaction) : bool :=
  bool_decide (m_type a = m_type _c)
  && (bool_decide (m_type a = ContractCreation)
      || bool_decide (m_receiveAddress a = m_receiveAddress _c))
  && bool_decide (m_value a = m_value _c)
  && bool_decide (m_data a = m_data _c).

(** [operator!=] *)
Definition Transaction_neq (a _c : Transaction) : bool :=
  negb (Transaction_eq a _c).

(** [explicit operator bool] *)
Definition Transaction_bool (t : Transaction) : bool :=
  negb (bool_decide (m_type t = NullTransaction)).

Definition isCreation (t : Transaction) : bool :=
  bool_decide (m_type t = ContractCreation).

Definition forceSender (_a : Address) (t : Transaction) : Transaction :=
  t |> with_m_sender _a.

(** Contextual conversion of a [u256] to [bool]: true when non-zero. *)
Definition u256_to_bool (x : u256) : bool := negb (x =? 0).

(** [isZeroSignature]: [!_r && !_s]. *)
Definition isZeroSignature (_r _s : u256) : bool :=
  negb (u256_to_bool _r) && negb (u256_to_bool _s).

Definition hasSignature (t : Transaction) : bool :=
  match m_vrs t with Some _ => true | None => false end.

Definition hasZeroSignature (t : Transaction) : bool :=
  match m_vrs t with
  | Some vrs => isZeroSignature (sig_r vrs) (sig_s vrs)
  | None => false
  end.

(** [Address()], the null address. *)
Definition ZeroAddress : Address := 0.

(** [clearSignature] *)
Definition clearSignature (t : Transaction) : Transaction :=
  t |> with_m_vrs None |> with_m_sender ZeroAddress.

Definition setNonce (_n : u256) (t : Transaction) : Transaction :=
  t |> clearSignature |> with_m_nonce _n |> with_m_hashWith 0
    |> with_m_rlpBuffer [].

Definition setBlockLimit (_blockLimit : u256) (t : Transaction) : Transaction :=
  t |> clearSignature |> with_m_blockLimit _blockLimit |> with_m_hashWith 0
    |> with_m_rlpBuffer [].

Definition setImportTime (_t : u256) (t : Transaction) : Transaction :=
  t |> with_m_importTime _t.

(** [updateSignature]: the argument is a shared pointer and may be null. *)
Definition updateSignature (sig : option Signature) (t : Transaction) : Transaction :=
  t |> with_m_vrs sig |> with_m_hashWith 0 |> with_m_sender ZeroAddress
    |> with_m_rlpBuffer [].

Definition setRpcTx (_rpcTx : bool) (t : Transaction) : Transaction :=
  t |> with_m_rpcTx _rpcTx.

Definition setSynced (_synced : bool) (t : Transaction) : Transaction :=
  t |> with_m_synced _synced.

Definition setReceiveAddress (_receiveAddr : Address) (t : Transaction) : Transaction :=
  t |> with_m_hashWith 0 |> with_m_rlpBuffer []
    |> with_m_receiveAddress _receiveAddr.

(** [setData] copies the pointee of its argument, which is given here. *)
Definition setData (_dataPtr : bytes) (t : Transaction) : Transaction :=
  t |> with_m_hashWith 0 |> with_m_rlpBuffer [] |> with_m_data _dataPtr.

Definition setChainId (_chainId : u256) (t : Transaction) : Transaction :=
  t |> with_m_hashWith 0 |> with_m_rlpBuffer [] |> with_m_chainId _chainId.

Definition setGroupId (_groupId : u256) (t : Transaction) : Transaction :=
  t |> with_m_hashWith 0 |> with_m_rlpBuffer [] |> with_m_groupId _groupId.

Definition setType (_type : TxType) (t : Transaction) : Transaction :=
  t |> with_m_hashWith 0 |> with_m_rlpBuffer [] |> with_m_type _type.

(** The marker operations of [Transaction] forward to the owned marker. *)
Definition appendNodeContainsTransaction (_node : h512) (t : Transaction) : Transaction :=
  t |> with_m_nodeTransactionMarker
         (NodeTransactionMarker.appendNodeContainsTransaction _node
            (m_nodeTransactionMarker t)).

Definition appendNodeListContainTransaction (_nodeList : list h512)
    (t : Transaction) : Transaction :=
  t |> with_m_nodeTransactionMarker
         (NodeTransactionMarker.appendNodeListContainTransaction _nodeList
            (m_nodeTransactionMarker t)).

Definition isTheNodeContainsTransaction (_node : h512) (t : Transaction) : bool :=
  NodeTransactionMarker.isTheNodeContainsTransaction _node
    (m_nodeTransactionMarker t).

Definition isKnownBySomeone (t : Transaction) : bool :=
  NodeTransactionMarker.isKnownBySomeone (m_nodeTransactionMarker t).

Definition clearNodeTransactionMarker (t : Transaction) : Transaction :=
  t |> with_m_nodeTransactionMarker
         (NodeTransactionMarker.clear (m_nodeTransactionMarker t)).

(** The equality of two transactions as the design document words it: the
    same kind, value and payload, and the same destination only when the kind
    is a message call.  It is compared with [Transaction_eq] below. *)
Definition spec_equal (a c : Transaction) : Prop :=
  m_type a = m_type c /\ m_value a = m_value c /\ m_data a = m_data c /\
  (m_type a = MessageCall -> m_receiveAddress a = m_receiveAddress c).

(** A setter that drops the hash and buffer caches and keeps the signature. *)
Definition drops_caches_keeps_signature (f : Transaction -> Transaction) : Prop :=
  forall t : Transaction,
    m_hashWith (f t) = 0 /\ m_rlpBuffer (f t) = [] /\
    m_vrs (f t) = m_vrs t /\ hasSignature (f t) = hasSignature t.

(** A setter that clears the signature together with all three caches. *)
Definition clears_signature_and_caches (f : Transaction -> Transaction) : Prop :=
  forall t : Transaction,
    m_vrs (f t) = None /\ m_sender (f t) = ZeroAddress /\
    m_hashWith (f t) = 0 /\ m_rlpBuffer (f t) = [] /\
    hasSignature (f t) = false.

(** [size_t] arithmetic wraps modulo 2^64; the conversion to [int64_t]
    reads the same 64 bits in two's complement. *)
Definition size_t_add (a b : Z) : Z := ((a + b) mod 2 ^ 64)%Z.

Definition to_int64 (x : Z) : Z :=
  (if x mod 2 ^ 64 <? 2 ^ 63 then x mod 2 ^ 64 else x mod 2 ^ 64 - 2 ^ 64)%Z.

(** [std::vector::size] *)
Definition vector_size (b : bytes) : Z := Z.of_nat (length b).

(** [capacity] *)
Definition capacity (t : Transaction) : Z :=
  to_int64
    (size_t_add (size_t_add (vector_size (m_data t)) (vector_size (m_rlpBuffer t)))
                (vector_size (m_extraData t))).

(** A member function that [operator==] cannot observe, on either side. *)
Definition equality_blind (f : Transaction -> Transaction) : Prop :=
  forall t c : Transaction,
    Transaction_eq (f t) c = Transaction_eq t c
    /\ Transaction_eq c (f t) = Transaction_eq c t.

(** A member function that leaves the answers of the marker as they were. *)
Definition keeps_marker (f : Transaction -> Transaction) : Prop :=
  forall t : Transaction,
    (forall p, isTheNodeContainsTransaction p (f t)
               = isTheNodeContainsTransaction p t)
    /\ isKnownBySomeone (f t) = isKnownBySomeone t.

(** A member function that leaves the signature and the hash and buffer
    caches as they were. *)
Definition keeps_signature_and_caches (f : Transaction -> Transaction) : Prop :=
  forall t : Transaction,
    m_vrs (f t) = m_vrs t /\ m_hashWith (f t) = m_hashWith t
    /\ m_rlpBuffer (f t) = m_rlpBuffer t.

(** A call of one of the seven setters that drop the hash and buffer
    caches, with its argument; [run_setter] performs the call and
    [run_setters] a sequence of calls, first call first. *)
Inductive Setter : Type :=
| SetNonce (_n : u256)
| SetBlockLimit (_blockLimit : u256)
| SetReceiveAddress (_receiveAddr : Address)
| SetData (_data : bytes)
| SetChainId (_chainId : u256)
| SetGroupId (_groupId : u256)
| SetType (_type : TxType).

Definition run_setter (s : Setter) (t : Transaction) : Transaction :=
  match s with
  | SetNonce x => setNonce x t
  | SetBlockLimit x => setBlockLimit x t
  | SetReceiveAddress x => setReceiveAddress x t
  | SetData x => setData x t
  | SetChainId x => setChainId x t
  | SetGroupId x => setGroupId x t
  | SetType x => setType x t
  end.

Definition run_setters (calls : list Setter) (t : Transaction) : Transaction :=
  fold_left (fun t' s => run_setter s t') calls t.

(** Whether two calls are calls of the same setter. *)
Definition same_setter (s1 s2 : Setter) : bool :=
  match s1, s2 with
  | SetNonce _, SetNonce _ | SetBlockLimit _, SetBlockLimit _
  | SetReceiveAddress _, SetReceiveAddress _ | SetData _, SetData _
  | SetChainId _, SetChainId _ | SetGroupId _, SetGroupId _
  | SetType _, SetType _ => true
  | _, _ => false
  end.

(** The calls that go through [clearSignature]. *)
Definition calls_clearSignature (s : Setter) : bool :=
  match s with
  | SetNonce _ | SetBlockLimit _ => true
  | _ => false
  end.

(** ** Fallible member functions *)

(** The error conditions of the design document (section 7). *)
Inductive TxError : Set :=
| DecodeError
| SignatureInvalid
| RecoveryFailure
| UnsignedTransaction
| EncodeWithoutSignature.

(** A call either returns a value or raises one of the errors above. *)
Inductive result (A : Type) : Type :=
| Ok (a : A)
| Err (e : TxError).
Arguments Ok {A} a.
Arguments Err {A} e.

(** Modelled from the spec: the [RLP] view of libdevcore/RLP.h, outside the
    header verified here.  The glossary describes the format as a recursive
    serialisation of ordered lists of byte strings; order and count of the
    items define their meaning. *)
#[local] Set Warnings "-register-all".
Inductive RLP : Type :=
| RLPData (b : bytes)
| RLPList (items : list RLP).

(** The items of the outer list; a byte string has none. *)
Definition rlpItems (r : RLP) : list RLP :=
  match r with
  | RLPData _ => []
  | RLPList items => items
  end.

Definition itemCount (r : RLP) : nat := length (rlpItems r).

(** The two field counts of each wire format, from the header's constants. *)
Definition isFieldCountRC1 (n : nat) : bool :=
  Nat.eqb n c_fieldCountRC1WithOutSig
  || Nat.eqb n (c_fieldCountRC1WithOutSig + c_sigCount).

Definition isFieldCountRC2 (n : nat) : bool :=
  Nat.eqb n c_fieldCountRC2WithOutSig
  || Nat.eqb n (c_fieldCountRC2WithOutSig + c_sigCount).

(** Collaborators used to instantiate the parameters below on concrete
    inputs: an encoding that tags the payload with the kind of encoding, a
    digest that measures the encoding, a recovery that rejects the zero
    scalar, a parser that accepts a tag byte followed by one-byte items, and
    a discriminator that looks for a recovery id in the eighth field. *)
Definition example_encode (t : Transaction) (_sig : IncludeSignature) : result bytes :=
  match _sig, m_vrs t with
  | WithoutSignature, _ => Ok (Byte.x00 :: m_data t)
  | WithSignature, Some _ => Ok (Byte.x01 :: m_data t)
  | WithSignature, None => Err EncodeWithoutSignature
  end.

Definition example_sha3 (b : bytes) : h256 := N.of_nat (length b).

Definition example_recover (digest : h256) (vrs : Signature) : option Address :=
  if sig_r vrs =? 0 then None else Some (sig_r vrs + digest).

Definition example_parseRLP (b : bytes) : option RLP :=
  match b with
  | [] => None
  | tag :: items =>
      if bool_decide (tag = Byte.xc0) then Some (RLPList (map (fun x => RLPData [x]) items))
      else Some (RLPData items)
  end.

Definition example_decodeRC1 (r : RLP) (_checkSig : CheckTransaction)
    (t : Transaction) : result Transaction :=
  Ok (t |> with_m_chainId 0 |> with_m_groupId 0).

Definition example_decodeRC2 (r : RLP) (_checkSig : CheckTransaction)
    (t : Transaction) : result Transaction :=
  Ok (t |> with_m_chainId 1 |> with_m_groupId 1).

Definition example_trailingFieldsAreRC2 (trailing : list RLP) : bool :=
  match trailing with
  | RLPData [v] :: _ =>
      (* a recovery id 0 or 1 in the eighth field: signed RC1 *)
      negb (bool_decide (v = Byte.x00) || bool_decide (v = Byte.x01))
  | _ => true
  end.

(** What a decoding call leaves behind: the populated object on success,
    the untouched object and the error otherwise. *)
Definition decode_outcome (t : Transaction) (res : result Transaction)
    : Transaction * option TxError :=
  match res with
  | Ok t' => (t', None)
  | Err e => (t, Some e)
  end.

(** Two concrete transactions: a signed message call whose buffer caches its
    signed encoding under [example_encode], and an unsigned one carrying a
    forged signature with a zero scalar. *)
Definition example_signature : Signature :=
  {| sig_v := 0; sig_r := 5; sig_s := 9 |}.

Definition example_cached_tx : Transaction :=
  Transaction_call 100 1 21000 170 [Byte.xaa] 0 1 1
    |> updateSignature (Some example_signature)
    |> with_m_rlpBuffer [Byte.x01; Byte.xaa].

Definition example_forged_tx : Transaction :=
  Transaction_call 100 1 21000 170 [] 0 1 1
    |> updateSignature (Some {| sig_v := 0; sig_r := 0; sig_s := 9 |}).

Section Collaborators.

(** [encode] is defined in Transaction.cpp.  It raises when a signed
    encoding is requested of an unsigned transaction. *)
Variable encode : Transaction -> IncludeSignature -> result bytes.

(** The digest and the recovery of the external crypto provider. *)
Variable sha3 : bytes -> h256.
Variable recover : h256 -> Signature -> option Address.

(** The RLP parser of libdevcore: [None] on a malformed byte stream. *)
Variable parseRLP : bytes -> option RLP.

(** The two per-version decoders of Transaction.cpp, and the secondary
    discriminator that inspects the fields after the first seven. *)
Variable decodeRC1 : RLP -> CheckTransaction -> Transaction -> result Transaction.
Variable decodeRC2 : RLP -> CheckTransaction -> Transaction -> result Transaction.
Variable trailingFieldsAreRC2 : list RLP -> bool.

(** [rlp]: the cached buffer when it is non-empty, else a fresh encoding. *)
Definition rlp (_sig : IncludeSignature) (t : Transaction) : result bytes :=
  if negb (bool_decide (m_rlpBuffer t = [])) then Ok (m_rlpBuffer t)
  else encode t _sig.

(** Modelled from the spec: [sender] is declared in the header and defined
    in Transaction.cpp.  Section 4.2: it returns the cached sender if valid
    (the caches are invalidated by resetting them to the null address);
    otherwise it hashes the encoding without signature, asks for the
    recovery of the address, caches it and returns it; it fails with the
    unsigned-transaction condition if no signature is present, and with a
    recovery failure if no address can be produced.  The second component
    is the object after the call, with its [mutable] cache. *)
Definition sender (t : Transaction) : result Address * Transaction :=
  if negb (bool_decide (m_sender t = ZeroAddress)) then (Ok (m_sender t), t)
  else
    match m_vrs t with
    | None => (Err UnsignedTransaction, t)
    | Some vrs =>
        match encode t WithoutSignature with
        | Err e => (Err e, t)
        | Ok unsignedBytes =>
            match recover (sha3 unsignedBytes) vrs with
            | None => (Err RecoveryFailure, t)
            | Some a => (Ok a, t |> with_m_sender a)
            end
        end
    end.

(** Modelled from the spec: [safeSender] is declared [noexcept] in the
    header and defined in Transaction.cpp.  Section 4.2: the same as
    [sender], but any failure is mapped to the null address. *)
Definition safeSender (t : Transaction) : Address * Transaction :=
  match sender t with
  | (Ok a, t') => (a, t')
  | (Err _, t') => (ZeroAddress, t')
  end.

(** Modelled from the spec: [decode(RLP const&, CheckTransaction)] is
    defined in Transaction.cpp.  Section 4.1: the version is chosen from
    the outer field count alone; a count that fits both versions is
    resolved by the discriminator on the trailing fields; any other count
    is a decode error. *)
Definition decodeRLP (r : RLP) (_checkSig : CheckTransaction)
    (t : Transaction) : result Transaction :=
  match isFieldCountRC1 (itemCount r), isFieldCountRC2 (itemCount r) with
  | true, false => decodeRC1 r _checkSig t
  | false, true => decodeRC2 r _checkSig t
  | true, true =>
      if trailingFieldsAreRC2 (drop c_fieldCountRC1WithOutSig (rlpItems r))
      then decodeRC2 r _checkSig t
      else decodeRC1 r _checkSig t
  | false, false => Err DecodeError
  end.

(** Modelled from the spec: [decode(bytesConstRef, CheckTransaction)] is
    defined in Transaction.cpp.  Sections 6 and 7: the call yields either
    the populated transaction or an error, and an error never leaves a
    partially populated object behind.  The result is the object after the
    call and the error raised, if any. *)
Definition decode (tx_bytes : bytes) (_checkSig : CheckTransaction)
    (t : Transaction) : Transaction * option TxError :=
  match parseRLP tx_bytes with
  | None => (t, Some DecodeError)
  | Some r =>
      match decodeRLP r _checkSig t with
      | Ok t' => (t', None)
      | Err e => (t, Some e)
      end
  end.

(** ** Properties that depend on the collaborators *)

Lemma sender_unsigned (t : Transaction) :
  m_sender t = ZeroAddress -> m_vrs t = None ->
  sender t = (Err UnsignedTransaction, t).
Proof.
  intros Hs Hv. unfold sender. rewrite Hs, Hv.
  rewrite bool_decide_eq_true_2 by reflexivity. reflexivity.
Qed.

Lemma setNonce_clears (_n : u256) : clears_signature_and_caches (setNonce _n).
Proof. intros [ ]. repeat split. Qed.

Lemma setBlockLimit_clears (_b : u256) :
  clears_signature_and_caches (setBlockLimit _b).
Proof. intros [ ]. repeat split. Qed.

(** C2: [setNonce] and [setBlockLimit], with any argument, clear the
    signature, reset the cached sender, and drop the cached hash and the
    cached buffer; afterwards [hasSignature] is false and [sender] fails
    with the unsigned-transaction error, leaving the object as it is. *)
Theorem setNonce_setBlockLimit_invalidate_signature (t : Transaction) (x : u256) :
  (clears_signature_and_caches (setNonce x)
   /\ m_nonce (setNonce x t) = x
   /\ sender (setNonce x t) = (Err UnsignedTransaction, setNonce x t))
  /\
  (clears_signature_and_caches (setBlockLimit x)
   /\ m_blockLimit (setBlockLimit x t) = x
   /\ sender (setBlockLimit x t) = (Err UnsignedTransaction, setBlockLimit x t)).
Proof.
  split.
  - split; [apply setNonce_clears|]. split; [reflexivity|].
    apply sender_unsigned; reflexivity.
  - split; [apply setBlockLimit_clears|]. split; [reflexivity|].
    apply sender_unsigned; reflexivity.
Qed.

Lemma isFieldCount_other (n : nat) :
  n <> 7%nat -> n <> 10%nat -> n <> 13%nat ->
  isFieldCountRC1 n = false /\ isFieldCountRC2 n = false.
Proof.
  intros H7 H10 H13. unfold isFieldCountRC1, isFieldCountRC2.
  unfold c_fieldCountRC1WithOutSig, c_fieldCountRC2WithOutSig, c_sigCount.
  simpl Nat.add.
  rewrite !orb_false_iff, !Nat.eqb_neq. auto.
Qed.

Lemma decode_error_keeps_object (tx_bytes : bytes) (c : CheckTransaction)
    (t : Transaction) (e : TxError) :
  snd (decode tx_bytes c t) = Some e -> fst (decode tx_bytes c t) = t.
Proof.
  unfold decode. destruct (parseRLP tx_bytes) as [r|]; [|reflexivity].
  destruct (decodeRLP r c t); simpl; [discriminate | reflexivity].
Qed.

(** C5: [decode] chooses the version from the outer field count alone.
    On a byte stream that parses to a list, seven fields are handed to
    [decodeRC1], thirteen to [decodeRC2], and ten to the one the
    discriminator selects from the fields after the seventh; [decode] then
    leaves what that decoder produced, or its error and the object as it
    was.  A malformed stream, a stream that is no list and any other field
    count raise [DecodeError]; and whenever [decode] raises, the transaction
    is left exactly as it was. *)
Theorem decode_sniffs_field_count (tx_bytes : bytes) (c : CheckTransaction)
    (t : Transaction) :
  match parseRLP tx_bytes with
  | None => decode tx_bytes c t = (t, Some DecodeError)
  | Some (RLPData b) => decode tx_bytes c t = (t, Some DecodeError)
  | Some (RLPList items) =>
      (length items = 7%nat ->
       decode tx_bytes c t = decode_outcome t (decodeRC1 (RLPList items) c t))
      /\ (length items = 13%nat ->
          decode tx_bytes c t = decode_outcome t (decodeRC2 (RLPList items) c t))
      /\ (length items = 10%nat ->
          decode tx_bytes c t =
            decode_outcome t
              (if trailingFieldsAreRC2 (drop 7 items)
               then decodeRC2 (RLPList items) c t
               else decodeRC1 (RLPList items) c t))
      /\ (length items <> 7%nat -> length items <> 10%nat ->
          length items <> 13%nat ->
          decode tx_bytes c t = (t, Some DecodeError))
  end
  /\ (forall e, snd (decode tx_bytes c t) = Some e ->
                fst (decode tx_bytes c t) = t).
Proof.
  split; [|intros e; apply decode_error_keeps_object].
  unfold decode. destruct (parseRLP tx_bytes) as [[b|items]|];
    [reflexivity| |reflexivity].
  unfold decodeRLP, itemCount, decode_outcome. simpl rlpItems.
  split; [|split; [|split]].
  - intros ->. reflexivity.
  - intros ->. reflexivity.
  - intros ->. reflexivity.
  - intros H7 H10 H13.
    destruct (isFieldCount_other (length items) H7 H10 H13) as [-> ->].
    reflexivity.
Qed.

(** C7: [safeSender] always returns an address.  Whenever [sender] raises,
    for whatever reason, [safeSender] returns the null address; this covers
    the absent signature and a signature the recovery rejects.  When
    [sender] succeeds, [safeSender] returns the same address. *)
Theorem safeSender_never_fails (t : Transaction) :
  (forall e t', sender t = (Err e, t') -> safeSender t = (ZeroAddress, t'))
  /\ (forall a t', sender t = (Ok a, t') -> safeSender t = (a, t'))
  /\ (m_sender t = ZeroAddress -> m_vrs t = None ->
      fst (sender t) = Err UnsignedTransaction
      /\ fst (safeSender t) = ZeroAddress)
  /\ (forall vrs unsignedBytes,
        m_sender t = ZeroAddress -> m_vrs t = Some vrs ->
        encode t WithoutSignature = Ok unsignedBytes ->
        recover (sha3 unsignedBytes) vrs = None ->
        fst (sender t) = Err RecoveryFailure
        /\ fst (safeSender t) = ZeroAddress).
Proof.
  split; [|split; [|split]].
  - intros e t' H. unfold safeSender. rewrite H. reflexivity.
  - intros a t' H. unfold safeSender. rewrite H. reflexivity.
  - intros Hs Hv. unfold safeSender.
    rewrite (sender_unsigned t Hs Hv). split; reflexivity.
  - intros vrs unsignedBytes Hs Hv Henc Hrec.
    assert (Hsender : sender t = (Err RecoveryFailure, t)).
    { unfold sender. rewrite Hs, Hv, Henc, Hrec.
      rewrite bool_decide_eq_true_2 by reflexivity. reflexivity. }
    unfold safeSender. rewrite Hsender. split; reflexivity.
Qed.

(** C10: when the cached buffer is non-empty, [rlp] returns it whatever
    encoding is requested: the two requests give the same bytes, and a
    cached signed encoding is what [rlp(WithoutSignature)] returns. *)
Theorem rlp_returns_cached_buffer (t : Transaction) :
  m_rlpBuffer t <> [] ->
  (forall _sig, rlp _sig t = Ok (m_rlpBuffer t))
  /\ rlp WithoutSignature t = rlp WithSignature t
  /\ (encode t WithSignature = Ok (m_rlpBuffer t) ->
      rlp WithoutSignature t = encode t WithSignature).
Proof.
  intros Hne.
  assert (Hall : forall _sig, rlp _sig t = Ok (m_rlpBuffer t)).
  { intros _sig. unfold rlp.
    rewrite bool_decide_eq_false_2 by assumption. reflexivity. }
  split; [exact Hall|]. split.
  - rewrite !Hall. reflexivity.
  - intros ->. apply Hall.
Qed.

End Collaborators.

(** ** Properties of the header's own member functions *)

Lemma Transaction_eq_true (a c : Transaction) :
  Transaction_eq a c = true <->
    m_type a = m_type c /\ m_value a = m_value c /\ m_data a = m_data c /\
    (m_type a <> ContractCreation -> m_receiveAddress a = m_receiveAddress c).
Proof.
  unfold Transaction_eq.
  rewrite !andb_true_iff, orb_true_iff, !bool_decide_eq_true.
  split.
  - intros [[[Hty Hor] Hv] Hd]. repeat split; try assumption.
    intros Hn. destruct Hor as [Hcc | Ha]; [contradiction | exact Ha].
  - intros (Hty & Hv & Hd & Hdest). repeat split; try assumption.
    destruct (decide (m_type a = ContractCreation)) as [Hcc | Hn];
      [left; exact Hcc | right; exact (Hdest Hn)].
Qed.

(** C1 (amended): [operator==] holds exactly when the two transactions have
    the same kind, value and payload and, unless the kind is
    [ContractCreation], the same destination.  No other member takes part:
    transactions that agree with [a] and [c] on these four members compare as
    [a] and [c] do, a transaction equals itself with another nonce, and
    different payloads compare unequal. *)
Theorem Transaction_eq_characterisation (a c : Transaction) :
  (Transaction_eq a c = true <->
     m_type a = m_type c /\ m_value a = m_value c /\ m_data a = m_data c /\
     (m_type a <> ContractCreation -> m_receiveAddress a = m_receiveAddress c))
  /\ (forall a' c' : Transaction,
        m_type a' = m_type a -> m_receiveAddress a' = m_receiveAddress a ->
        m_value a' = m_value a -> m_data a' = m_data a ->
        m_type c' = m_type c -> m_receiveAddress c' = m_receiveAddress c ->
        m_value c' = m_value c -> m_data c' = m_data c ->
        Transaction_eq a' c' = Transaction_eq a c)
  /\ (forall n : u256, Transaction_eq a (with_m_nonce n a) = true)
  /\ (m_data a <> m_data c -> Transaction_eq a c = false).
Proof.
  split; [apply Transaction_eq_true|]. split; [|split].
  - intros a' c' H1 H2 H3 H4 H5 H6 H7 H8. unfold Transaction_eq.
    rewrite H1, H2, H3, H4, H5, H6, H7, H8. reflexivity.
  - intros n. apply Transaction_eq_true. repeat split.
  - intros Hd. apply not_true_is_false. intros Heq.
    apply Transaction_eq_true in Heq. apply Hd, Heq.
Qed.

(** The claim as worded fails on two null transactions with different
    destinations: the design document's relation holds, yet [operator==]
    compares the destinations and answers false. *)
Lemma Transaction_eq_null_destination :
  (spec_equal Transaction_null (setReceiveAddress 1 Transaction_null)
   /\ Transaction_eq Transaction_null (setReceiveAddress 1 Transaction_null) = false)
  /\ ~ (Transaction_eq Transaction_null (setReceiveAddress 1 Transaction_null) = true
        <-> spec_equal Transaction_null (setReceiveAddress 1 Transaction_null)).
Proof.
  assert (Hs : spec_equal Transaction_null (setReceiveAddress 1 Transaction_null)).
  { repeat split. discriminate. }
  assert (Hf : Transaction_eq Transaction_null
                 (setReceiveAddress 1 Transaction_null) = false)
    by reflexivity.
  split; [split; assumption|].
  intros [_ Hback]. specialize (Hback Hs). rewrite Hf in Hback. discriminate.
Qed.

(** C3: [setReceiveAddress], [setData], [setChainId], [setGroupId] and
    [setType] reset the cached hash and empty the cached buffer, and leave
    the signature as it was: [hasSignature] answers the same and the stored
    signature is the same. *)
Theorem setters_drop_caches_keep_signature :
  (forall x, drops_caches_keeps_signature (setReceiveAddress x))
  /\ (forall x, drops_caches_keeps_signature (setData x))
  /\ (forall x, drops_caches_keeps_signature (setChainId x))
  /\ (forall x, drops_caches_keeps_signature (setGroupId x))
  /\ (forall x, drops_caches_keeps_signature (setType x)).
Proof. repeat split. Qed.

(** C4: [updateSignature] stores the signature, resets the cached hash to
    zero and the cached sender to the null address, empties the cached
    buffer, and changes no other member. *)
Theorem updateSignature_invalidates_caches (sig : option Signature) (t : Transaction) :
  (m_vrs (updateSignature sig t) = sig
   /\ m_hashWith (updateSignature sig t) = 0
   /\ m_sender (updateSignature sig t) = ZeroAddress
   /\ m_rlpBuffer (updateSignature sig t) = [])
  /\ (m_type (updateSignature sig t) = m_type t
      /\ m_nonce (updateSignature sig t) = m_nonce t
      /\ m_value (updateSignature sig t) = m_value t
      /\ m_receiveAddress (updateSignature sig t) = m_receiveAddress t
      /\ m_gasPrice (updateSignature sig t) = m_gasPrice t
      /\ m_gas (updateSignature sig t) = m_gas t
      /\ m_data (updateSignature sig t) = m_data t
      /\ m_blockLimit (updateSignature sig t) = m_blockLimit t
      /\ m_chainId (updateSignature sig t) = m_chainId t
      /\ m_groupId (updateSignature sig t) = m_groupId t)
  /\ (m_importTime (updateSignature sig t) = m_importTime t
      /\ m_rpcCallback (updateSignature sig t) = m_rpcCallback t
      /\ m_extraData (updateSignature sig t) = m_extraData t
      /\ m_rpcTx (updateSignature sig t) = m_rpcTx t
      /\ m_synced (updateSignature sig t) = m_synced t
      /\ m_nodeTransactionMarker (updateSignature sig t)
         = m_nodeTransactionMarker t).
Proof. repeat split. Qed.

Lemma isTheNodeContainsTransaction_elem (p : h512) (m : NodeTransactionMarker.t) :
  NodeTransactionMarker.isTheNodeContainsTransaction p m = true <->
  p ∈ NodeTransactionMarker.m_nodeListWithTheTransaction m.
Proof.
  unfold NodeTransactionMarker.isTheNodeContainsTransaction,
    NodeTransactionMarker.set_count.
  destruct (decide (p ∈ NodeTransactionMarker.m_nodeListWithTheTransaction m));
    simpl; split; intros; try done.
Qed.

Lemma isKnownBySomeone_nonempty (m : NodeTransactionMarker.t) :
  NodeTransactionMarker.isKnownBySomeone m = true <->
  NodeTransactionMarker.m_nodeListWithTheTransaction m ≠ ∅.
Proof.
  unfold NodeTransactionMarker.isKnownBySomeone, NodeTransactionMarker.set_empty.
  rewrite negb_true_iff, bool_decide_eq_false. reflexivity.
Qed.

(** C8: after [appendNodeContainsTransaction p] the marker answers true for
    [p]; inserting a peer that is already present leaves the marker as it
    is; [isKnownBySomeone] is true exactly when the set is non-empty, hence
    false exactly on a marker in the state of a freshly constructed one,
    which is also the state [clear] leaves behind. *)
Theorem marker_membership (m : NodeTransactionMarker.t) (p : h512) :
  NodeTransactionMarker.isTheNodeContainsTransaction p
    (NodeTransactionMarker.appendNodeContainsTransaction p m) = true
  /\ (NodeTransactionMarker.isTheNodeContainsTransaction p m = true ->
      NodeTransactionMarker.appendNodeContainsTransaction p m = m)
  /\ (NodeTransactionMarker.isKnownBySomeone m = true <->
      NodeTransactionMarker.m_nodeListWithTheTransaction m ≠ ∅)
  /\ (NodeTransactionMarker.isKnownBySomeone m = false <->
      m = NodeTransactionMarker.new)
  /\ NodeTransactionMarker.isKnownBySomeone NodeTransactionMarker.new = false
  /\ NodeTransactionMarker.clear m = NodeTransactionMarker.new
  /\ NodeTransactionMarker.m_nodeListWithTheTransaction
       (NodeTransactionMarker.clear m) = ∅
  /\ NodeTransactionMarker.isKnownBySomeone (NodeTransactionMarker.clear m) = false.
Proof.
  split; [|split; [|split; [|split]]].
  - apply isTheNodeContainsTransaction_elem. simpl.
    unfold NodeTransactionMarker.set_insert. set_solver.
  - rewrite isTheNodeContainsTransaction_elem. destruct m as [s]. simpl.
    intros Hin. unfold NodeTransactionMarker.appendNodeContainsTransaction,
      NodeTransactionMarker.set_insert. simpl. f_equal.
    apply subseteq_union_1_L, singleton_subseteq_l, Hin.
  - apply isKnownBySomeone_nonempty.
  - destruct m as [s].
    unfold NodeTransactionMarker.isKnownBySomeone,
      NodeTransactionMarker.set_empty, NodeTransactionMarker.new. simpl.
    rewrite negb_false_iff, bool_decide_eq_true. split.
    + intros ->. reflexivity.
    + intros H. injection H as Hs. rewrite Hs. reflexivity.
  - repeat split.
Qed.

(** C9: [hasSignature] is true exactly when a signature is attached;
    [hasZeroSignature] is true exactly when a signature is attached and its
    scalars [r] and [s] are both zero; on an unsigned transaction
    [hasZeroSignature] is false. *)
Theorem hasSignature_hasZeroSignature (t : Transaction) :
  (hasSignature t = true <-> exists vrs, m_vrs t = Some vrs)
  /\ (hasZeroSignature t = true <->
      exists vrs, m_vrs t = Some vrs /\ sig_r vrs = 0 /\ sig_s vrs = 0)
  /\ (hasSignature t = false -> hasZeroSignature t = false).
Proof.
  unfold hasSignature, hasZeroSignature, isZeroSignature, u256_to_bool.
  destruct (m_vrs t) as [vrs|].
  - split; [|split].
    + split; [intros _; exists vrs; reflexivity | reflexivity].
    + rewrite andb_true_iff, !negb_involutive, !N.eqb_eq. split.
      * intros [Hr Hs]. exists vrs. auto.
      * intros (v & Hv & Hr & Hs). injection Hv as Hv. subst v. auto.
    + discriminate.
  - split; [|split].
    + split; [discriminate | intros [v Hv]; discriminate].
    + split; [discriminate | intros (v & Hv & _); discriminate].
    + reflexivity.
Qed.

(** ** The properties on concrete inputs *)

(** A signed transaction loses its signature on [setNonce], and [sender]
    then raises. *)
Lemma setNonce_setBlockLimit_invalidate_signature_witness :
  hasSignature example_cached_tx = true
  /\ hasSignature (setNonce 7 example_cached_tx) = false
  /\ sender example_encode example_sha3 example_recover
       (setNonce 7 example_cached_tx)
     = (Err UnsignedTransaction, setNonce 7 example_cached_tx).
Proof.
  destruct (setNonce_setBlockLimit_invalidate_signature
              example_encode example_sha3 example_recover example_cached_tx 7)
    as [(Hclear & _ & Hsender) _].
  split; [reflexivity|]. split; [apply Hclear | exact Hsender].
Defined.

(** [decode] on concrete streams, with the example collaborators: seven
    fields are decoded by the RC1 decoder and thirteen by the RC2 decoder;
    ten fields go to RC1 when the eighth is a recovery id and to RC2 when it
    is not; three fields match neither format. *)
Lemma decode_sniffs_field_count_witness :
  decode example_parseRLP example_decodeRC1 example_decodeRC2
    example_trailingFieldsAreRC2
    (Byte.xc0 :: repeat Byte.x05 7) Everything (setChainId 9 Transaction_null)
  = (setChainId 9 Transaction_null |> with_m_chainId 0 |> with_m_groupId 0, None)
  /\ decode example_parseRLP example_decodeRC1 example_decodeRC2
       example_trailingFieldsAreRC2
       (Byte.xc0 :: repeat Byte.x05 13) Everything (setChainId 9 Transaction_null)
     = (setChainId 9 Transaction_null |> with_m_chainId 1 |> with_m_groupId 1, None)
  /\ decode example_parseRLP example_decodeRC1 example_decodeRC2
       example_trailingFieldsAreRC2
       (Byte.xc0 :: repeat Byte.x05 7 ++ Byte.x01 :: repeat Byte.x05 2)
       Everything (setChainId 9 Transaction_null)
     = (setChainId 9 Transaction_null |> with_m_chainId 0 |> with_m_groupId 0, None)
  /\ decode example_parseRLP example_decodeRC1 example_decodeRC2
       example_trailingFieldsAreRC2
       (Byte.xc0 :: repeat Byte.x05 10) Everything (setChainId 9 Transaction_null)
     = (setChainId 9 Transaction_null |> with_m_chainId 1 |> with_m_groupId 1, None)
  /\ decode example_parseRLP example_decodeRC1 example_decodeRC2
       example_trailingFieldsAreRC2
       [Byte.xc0; Byte.x01; Byte.x02; Byte.x03] Everything Transaction_null
     = (Transaction_null, Some DecodeError).
Proof.
  split; [|split; [|split; [|split]]].
  - destruct (decode_sniffs_field_count example_parseRLP example_decodeRC1
                example_decodeRC2 example_trailingFieldsAreRC2
                (Byte.xc0 :: repeat Byte.x05 7) Everything
                (setChainId 9 Transaction_null)) as [(H7 & _) _].
    exact (H7 eq_refl).
  - destruct (decode_sniffs_field_count example_parseRLP example_decodeRC1
                example_decodeRC2 example_trailingFieldsAreRC2
                (Byte.xc0 :: repeat Byte.x05 13) Everything
                (setChainId 9 Transaction_null)) as [(_ & H13 & _) _].
    exact (H13 eq_refl).
  - destruct (decode_sniffs_field_count example_parseRLP example_decodeRC1
                example_decodeRC2 example_trailingFieldsAreRC2
                (Byte.xc0 :: repeat Byte.x05 7 ++ Byte.x01 :: repeat Byte.x05 2)
                Everything (setChainId 9 Transaction_null))
      as [(_ & _ & H10 & _) _].
    exact (H10 eq_refl).
  - destruct (decode_sniffs_field_count example_parseRLP example_decodeRC1
                example_decodeRC2 example_trailingFieldsAreRC2
                (Byte.xc0 :: repeat Byte.x05 10) Everything
                (setChainId 9 Transaction_null)) as [(_ & _ & H10 & _) _].
    exact (H10 eq_refl).
  - destruct (decode_sniffs_field_count example_parseRLP example_decodeRC1
                example_decodeRC2 example_trailingFieldsAreRC2
                [Byte.xc0; Byte.x01; Byte.x02; Byte.x03] Everything
                Transaction_null) as [(_ & _ & _ & Hother) _].
    apply Hother; discriminate.
Defined.

(** A signature whose scalar [r] is zero is rejected by the recovery:
    [sender] raises and [safeSender] answers the null address. *)
Lemma safeSender_never_fails_witness :
  fst (sender example_encode example_sha3 example_recover example_forged_tx)
  = Err RecoveryFailure
  /\ fst (safeSender example_encode example_sha3 example_recover example_forged_tx)
     = ZeroAddress.
Proof.
  destruct (safeSender_never_fails example_encode example_sha3 example_recover
              example_forged_tx) as (_ & _ & _ & H).
  apply (H {| sig_v := 0; sig_r := 0; sig_s := 9 |} [Byte.x00]); reflexivity.
Defined.

(** The buffer of [example_cached_tx] holds its signed encoding; asking for
    the encoding without signature returns that buffer, not the unsigned
    encoding. *)
Lemma rlp_returns_cached_buffer_witness :
  m_rlpBuffer example_cached_tx <> []
  /\ example_encode example_cached_tx WithSignature = Ok [Byte.x01; Byte.xaa]
  /\ example_encode example_cached_tx WithoutSignature = Ok [Byte.x00; Byte.xaa]
  /\ rlp example_encode WithoutSignature example_cached_tx
     = Ok [Byte.x01; Byte.xaa].
Proof.
  assert (Hne : m_rlpBuffer example_cached_tx <> []) by discriminate.
  destruct (rlp_returns_cached_buffer example_encode example_cached_tx Hne)
    as (Hall & _ & _).
  split; [exact Hne|]. split; [reflexivity|]. split; [reflexivity|].
  apply Hall.
Defined.

(** ** Further properties of [operator==] *)

Lemma bool_decide_self {A : Type} `{EqDecision A} (x : A) :
  bool_decide (x = x) = true.
Proof. apply bool_decide_eq_true_2. reflexivity. Qed.

Lemma Transaction_eq_sym (a c : Transaction) :
  Transaction_eq a c = Transaction_eq c a.
Proof.
  apply eq_true_iff_eq. rewrite !Transaction_eq_true. split.
  - intros (Hty & Hv & Hd & Ha). repeat split; try congruence.
    intros Hn. symmetry. apply Ha. congruence.
  - intros (Hty & Hv & Hd & Ha). repeat split; try congruence.
    intros Hn. symmetry. apply Ha. congruence.
Qed.

(** X1: [operator==] is an equivalence relation on transactions: every
    transaction equals itself, the comparison does not depend on the side a
    transaction stands on, and equality carries over a common middle. *)
Theorem Transaction_eq_equivalence :
  (forall a : Transaction, Transaction_eq a a = true)
  /\ (forall a c : Transaction, Transaction_eq a c = Transaction_eq c a)
  /\ (forall a b c : Transaction,
        Transaction_eq a b = true -> Transaction_eq b c = true ->
        Transaction_eq a c = true).
Proof.
  split; [|split].
  - intros a. apply Transaction_eq_true. repeat split.
  - apply Transaction_eq_sym.
  - intros a b c. rewrite !Transaction_eq_true.
    intros (Hty & Hv & Hd & Ha) (Hty' & Hv' & Hd' & Ha').
    repeat split; try congruence.
    intros Hn. rewrite Ha by assumption. apply Ha'. congruence.
Qed.

(** X2: [operator!=] answers true exactly when the kinds, the values or the
    payloads differ, or the kind is not a contract creation and the
    destinations differ; it is never true of a transaction and itself. *)
Theorem Transaction_neq_characterisation (a c : Transaction) :
  (Transaction_neq a c = true <->
     m_type a <> m_type c \/ m_value a <> m_value c \/ m_data a <> m_data c
     \/ (m_type a <> ContractCreation
         /\ m_receiveAddress a <> m_receiveAddress c))
  /\ Transaction_neq a a = false.
Proof.
  split.
  - unfold Transaction_neq. rewrite negb_true_iff, <- not_true_iff_false.
    rewrite Transaction_eq_true. split.
    + intros Hnot.
      destruct (decide (m_type a = m_type c)) as [Hty|]; [|tauto].
      destruct (decide (m_value a = m_value c)) as [Hv|]; [|tauto].
      destruct (decide (m_data a = m_data c)) as [Hd|]; [|tauto].
      destruct (decide (m_type a = ContractCreation)) as [Hcc|Hcc].
      * exfalso. apply Hnot. repeat split; try assumption. contradiction.
      * destruct (decide (m_receiveAddress a = m_receiveAddress c)) as [Ha|];
          [|tauto].
        exfalso. apply Hnot. repeat split; try assumption.
        intros _. exact Ha.
    + intros [H | [H | [H | [Hcc H]]]] (Hty & Hv & Hd & Ha); auto.
  - unfold Transaction_neq. apply negb_false_iff, Transaction_eq_true.
    repeat split.
Qed.

(** X3: equality cannot observe the nonce, the block limit, the import
    time, the signature, the forced sender, the chain and group ids, the
    rpc and synced flags or the marker: setting any of them leaves every
    comparison of the transaction, on either side, as it was. *)
Theorem setters_invisible_to_equality :
  (forall x, equality_blind (setNonce x))
  /\ (forall x, equality_blind (setBlockLimit x))
  /\ (forall x, equality_blind (setImportTime x))
  /\ (forall x, equality_blind (updateSignature x))
  /\ (forall x, equality_blind (forceSender x))
  /\ (forall x, equality_blind (setChainId x))
  /\ (forall x, equality_blind (setGroupId x))
  /\ (forall x, equality_blind (setRpcTx x))
  /\ (forall x, equality_blind (setSynced x))
  /\ (forall x, equality_blind (appendNodeContainsTransaction x))
  /\ (forall x, equality_blind (appendNodeListContainTransaction x))
  /\ equality_blind clearNodeTransactionMarker.
Proof. repeat split. Qed.

(** X4: how the three setters of compared members show in equality.  After
    [setReceiveAddress] the transaction equals its former self exactly when
    it is a contract creation or the address is the one it had; after
    [setData] exactly when the payload is the one it had; after [setType]
    exactly when the kind is the one it had. *)
Theorem identity_setters_equality (t : Transaction) :
  (forall a, Transaction_eq t (setReceiveAddress a t)
             = isCreation t || bool_decide (m_receiveAddress t = a))
  /\ (forall d, Transaction_eq t (setData d t) = bool_decide (m_data t = d))
  /\ (forall ty, Transaction_eq t (setType ty t) = bool_decide (m_type t = ty)).
Proof.
  split; [|split].
  - intros a. unfold Transaction_eq, isCreation. simpl.
    rewrite !bool_decide_self. rewrite !andb_true_r. reflexivity.
  - intros d. unfold Transaction_eq. simpl.
    rewrite !bool_decide_self. rewrite orb_true_r. reflexivity.
  - intros ty. unfold Transaction_eq. simpl.
    rewrite !bool_decide_self. rewrite orb_true_r, !andb_true_r. reflexivity.
Qed.

(** X5: equality of freshly constructed transactions.  Two contract
    creations are equal exactly when value and payload agree, whatever their
    gas, nonce, chain id and group id; two message calls exactly when value,
    destination and payload agree; a message call never equals a contract
    creation, and neither equals the null transaction. *)
Theorem constructors_equality
    (v gp g dest n ch gr v' gp' g' dest' n' ch' gr' : N) (d d' : bytes) :
  (Transaction_eq (Transaction_create v gp g d n ch gr)
                  (Transaction_create v' gp' g' d' n' ch' gr') = true
   <-> v = v' /\ d = d')
  /\ (Transaction_eq (Transaction_call v gp g dest d n ch gr)
                     (Transaction_call v' gp' g' dest' d' n' ch' gr') = true
      <-> v = v' /\ dest = dest' /\ d = d')
  /\ Transaction_eq (Transaction_call v gp g dest d n ch gr)
                    (Transaction_create v' gp' g' d' n' ch' gr') = false
  /\ Transaction_eq (Transaction_create v gp g d n ch gr)
                    (Transaction_call v' gp' g' dest' d' n' ch' gr') = false
  /\ Transaction_eq Transaction_null (Transaction_call v gp g dest d n ch gr) = false
  /\ Transaction_eq Transaction_null (Transaction_create v gp g d n ch gr) = false.
Proof.
  split; [|split; [|repeat split]].
  - rewrite Transaction_eq_true. simpl. split.
    + intros (_ & Hv & Hd & _). auto.
    + intros [Hv Hd]. repeat split; assumption.
  - rewrite Transaction_eq_true. simpl. split.
    + intros (_ & Hv & Hd & Ha). repeat split; try assumption.
      apply Ha. discriminate.
    + intros (Hv & Ha & Hd). repeat split; auto.
Qed.

(** ** Further properties of the signature and the caches *)

Lemma rlp_of_cached_buffer (encode : Transaction -> IncludeSignature -> result bytes)
    (_sig : IncludeSignature) (t : Transaction) :
  m_rlpBuffer t <> [] -> rlp encode _sig t = Ok (m_rlpBuffer t).
Proof.
  intros Hne. unfold rlp. rewrite bool_decide_eq_false_2 by assumption.
  reflexivity.
Qed.

Lemma run_setter_drops_caches (s : Setter) (t : Transaction) :
  m_hashWith (run_setter s t) = 0 /\ m_rlpBuffer (run_setter s t) = [].
Proof. destruct s; split; reflexivity. Qed.

Lemma run_setter_vrs (s : Setter) (t : Transaction) :
  m_vrs (run_setter s t) = if calls_clearSignature s then None else m_vrs t.
Proof. destruct s; reflexivity. Qed.

Lemma run_setter_sender (s : Setter) (t : Transaction) :
  m_sender (run_setter s t)
  = if calls_clearSignature s then ZeroAddress else m_sender t.
Proof. destruct s; reflexivity. Qed.

(** X6: [hasZeroSignature] implies [hasSignature].  Attaching a signature
    object makes the transaction signed, and zero-signed exactly when both
    scalars of the object are zero; attaching the null pointer leaves it
    unsigned, as [clearSignature] does. *)
Theorem signature_predicates_after_updateSignature (t : Transaction) :
  (hasZeroSignature t = true -> hasSignature t = true)
  /\ (forall vrs,
        hasSignature (updateSignature (Some vrs) t) = true
        /\ (hasZeroSignature (updateSignature (Some vrs) t) = true
            <-> sig_r vrs = 0 /\ sig_s vrs = 0))
  /\ hasSignature (updateSignature None t) = false
  /\ hasZeroSignature (updateSignature None t) = false
  /\ hasSignature (clearSignature t) = false
  /\ hasZeroSignature (clearSignature t) = false.
Proof.
  split; [|split; [|repeat split]].
  - unfold hasZeroSignature, hasSignature. destruct (m_vrs t); auto.
  - intros vrs. split; [reflexivity|].
    unfold hasZeroSignature, isZeroSignature, u256_to_bool. simpl.
    rewrite andb_true_iff, !negb_involutive, !N.eqb_eq. reflexivity.
Qed.

(** X7: two calls of the same setter leave what the later one alone would,
    and calls of two different setters can be swapped. *)
Theorem setters_overwrite_and_commute (s1 s2 : Setter) (t : Transaction) :
  run_setter s1 (run_setter s2 t)
  = if same_setter s1 s2 then run_setter s1 t
    else run_setter s2 (run_setter s1 t).
Proof. destruct s1, s2; reflexivity. Qed.

(** X8: after a sequence of setter calls the signature is the one the
    transaction had if no call was [setNonce] or [setBlockLimit], and absent
    otherwise; the same holds of the cached sender, which is then the null
    address; and after a non-empty sequence the cached hash is zero and the
    cached buffer empty. *)
Theorem setter_sequence_signature_and_caches (calls : list Setter) (t : Transaction) :
  m_vrs (run_setters calls t)
    = (if existsb calls_clearSignature calls then None else m_vrs t)
  /\ m_sender (run_setters calls t)
    = (if existsb calls_clearSignature calls then ZeroAddress else m_sender t)
  /\ (calls <> [] ->
      m_hashWith (run_setters calls t) = 0
      /\ m_rlpBuffer (run_setters calls t) = []).
Proof.
  split; [|split].
  - revert t. induction calls as [|s calls IH]; intros t; [reflexivity|].
    unfold run_setters in *. simpl. rewrite IH, run_setter_vrs.
    destruct (calls_clearSignature s); simpl; [|reflexivity].
    destruct (existsb calls_clearSignature calls); reflexivity.
  - revert t. induction calls as [|s calls IH]; intros t; [reflexivity|].
    unfold run_setters in *. simpl. rewrite IH, run_setter_sender.
    destruct (calls_clearSignature s); simpl; [|reflexivity].
    destruct (existsb calls_clearSignature calls); reflexivity.
  - intros Hne. destruct (exists_last Hne) as (front & s & ->).
    unfold run_setters. rewrite fold_left_app. simpl.
    apply run_setter_drops_caches.
Qed.

(** X9: signing and the setters.  [updateSignature] can be swapped with
    [setReceiveAddress], [setData], [setChainId], [setGroupId] and [setType];
    with [setNonce] and [setBlockLimit] the order decides: set after signing,
    the transaction is unsigned; set before signing, it carries the
    signature. *)
Theorem updateSignature_and_setters (vrs : Signature) (s : Setter) (t : Transaction) :
  (calls_clearSignature s = false ->
   run_setter s (updateSignature (Some vrs) t)
   = updateSignature (Some vrs) (run_setter s t))
  /\ (calls_clearSignature s = true ->
      hasSignature (run_setter s (updateSignature (Some vrs) t)) = false
      /\ hasSignature (updateSignature (Some vrs) (run_setter s t)) = true)
  /\ m_vrs (updateSignature (Some vrs) (run_setter s t)) = Some vrs.
Proof.
  split; [|split].
  - destruct s; simpl; intros H; try discriminate; reflexivity.
  - destruct s; simpl; intros H; try discriminate; split; reflexivity.
  - reflexivity.
Qed.

(** X10: after any of the seven setters, and after [updateSignature], [rlp]
    encodes the transaction afresh: no buffer cached before the call is
    returned. *)
Theorem rlp_after_invalidation
    (encode : Transaction -> IncludeSignature -> result bytes)
    (_sig : IncludeSignature) (t : Transaction) :
  (forall s, rlp encode _sig (run_setter s t) = encode (run_setter s t) _sig)
  /\ (forall vrs, rlp encode _sig (updateSignature vrs t)
                  = encode (updateSignature vrs t) _sig).
Proof.
  split.
  - intros s. unfold rlp.
    destruct (run_setter_drops_caches s t) as [_ ->]. reflexivity.
  - intros vrs. reflexivity.
Qed.

(** X11: [forceSender], [setImportTime], [setRpcTx], [setSynced] and the
    marker operations keep the signature, the cached hash and the cached
    buffer. *)
Theorem other_setters_keep_signature_and_caches :
  (forall x, keeps_signature_and_caches (forceSender x))
  /\ (forall x, keeps_signature_and_caches (setImportTime x))
  /\ (forall x, keeps_signature_and_caches (setRpcTx x))
  /\ (forall x, keeps_signature_and_caches (setSynced x))
  /\ (forall x, keeps_signature_and_caches (appendNodeContainsTransaction x))
  /\ (forall x, keeps_signature_and_caches (appendNodeListContainTransaction x))
  /\ keeps_signature_and_caches clearNodeTransactionMarker.
Proof. repeat split. Qed.

(** X12: a non-empty cached buffer survives [forceSender]: [rlp] returns the
    bytes cached before the sender was forced, for either kind of encoding. *)
Theorem rlp_after_forceSender
    (encode : Transaction -> IncludeSignature -> result bytes)
    (_sig : IncludeSignature) (_a : Address) (t : Transaction) :
  m_rlpBuffer t <> [] ->
  rlp encode _sig (forceSender _a t) = Ok (m_rlpBuffer t)
  /\ m_sender (forceSender _a t) = _a.
Proof.
  intros Hne. split; [|reflexivity].
  apply (rlp_of_cached_buffer encode _sig (forceSender _a t)). exact Hne.
Qed.

Lemma rlp_after_forceSender_witness :
  rlp example_encode WithoutSignature (forceSender 3 example_cached_tx)
  = Ok [Byte.x01; Byte.xaa]
  /\ m_sender (forceSender 3 example_cached_tx) = 3.
Proof.
  apply (rlp_after_forceSender example_encode WithoutSignature 3
           example_cached_tx).
  discriminate.
Defined.

(** ** Further properties of the propagation marker *)

Lemma fold_set_insert (l : list h512) (s : gset h512) :
  fold_left (fun acc node => NodeTransactionMarker.set_insert node acc) l s
  = list_to_set l ∪ s.
Proof.
  revert s. induction l as [|n l IH]; intros s; simpl.
  - symmetry. apply (left_id_L ∅ (∪)).
  - rewrite IH. unfold NodeTransactionMarker.set_insert.
    apply set_eq. intros x. rewrite !elem_of_union. tauto.
Qed.

Lemma marker_eq (m1 m2 : NodeTransactionMarker.t) :
  NodeTransactionMarker.m_nodeListWithTheTransaction m1
  = NodeTransactionMarker.m_nodeListWithTheTransaction m2 -> m1 = m2.
Proof. destruct m1, m2. simpl. intros ->. reflexivity. Qed.

Lemma appendNodeList_nodes (l : list h512) (m : NodeTransactionMarker.t) :
  NodeTransactionMarker.m_nodeListWithTheTransaction
    (NodeTransactionMarker.appendNodeListContainTransaction l m)
  = list_to_set l ∪ NodeTransactionMarker.m_nodeListWithTheTransaction m.
Proof. apply fold_set_insert. Qed.

(** X13: after a peer is inserted the marker knows exactly that peer and
    the peers it knew before; after a list of peers is inserted it knows
    exactly the peers of the list and the peers it knew before.  No peer is
    forgotten by an insertion. *)
Theorem marker_membership_after_insert (m : NodeTransactionMarker.t)
    (p q : h512) (l : list h512) :
  (NodeTransactionMarker.isTheNodeContainsTransaction q
     (NodeTransactionMarker.appendNodeContainsTransaction p m) = true
   <-> q = p \/ NodeTransactionMarker.isTheNodeContainsTransaction q m = true)
  /\ (NodeTransactionMarker.isTheNodeContainsTransaction q
        (NodeTransactionMarker.appendNodeListContainTransaction l m) = true
      <-> q ∈ l \/ NodeTransactionMarker.isTheNodeContainsTransaction q m = true).
Proof.
  rewrite !isTheNodeContainsTransaction_elem, appendNodeList_nodes. simpl.
  unfold NodeTransactionMarker.set_insert. split.
  - rewrite elem_of_union, elem_of_singleton. reflexivity.
  - rewrite elem_of_union, elem_of_list_to_set. reflexivity.
Qed.

(** X14: inserting a list peer by peer.  The empty list changes nothing, a
    one-element list is a single insertion, a list headed by [p] is the
    insertion of [p] followed by the rest, and a concatenation is the first
    list followed by the second. *)
Theorem appendNodeList_composition (m : NodeTransactionMarker.t)
    (p : h512) (l1 l2 : list h512) :
  NodeTransactionMarker.appendNodeListContainTransaction [] m = m
  /\ NodeTransactionMarker.appendNodeListContainTransaction [p] m
     = NodeTransactionMarker.appendNodeContainsTransaction p m
  /\ NodeTransactionMarker.appendNodeListContainTransaction (p :: l1) m
     = NodeTransactionMarker.appendNodeListContainTransaction l1
         (NodeTransactionMarker.appendNodeContainsTransaction p m)
  /\ NodeTransactionMarker.appendNodeListContainTransaction (l1 ++ l2) m
     = NodeTransactionMarker.appendNodeListContainTransaction l2
         (NodeTransactionMarker.appendNodeListContainTransaction l1 m).
Proof.
  split; [|split; [|split]].
  - destruct m. reflexivity.
  - reflexivity.
  - reflexivity.
  - unfold NodeTransactionMarker.appendNodeListContainTransaction. simpl.
    rewrite fold_left_app. reflexivity.
Qed.

(** X15: order and repetition in an inserted list do not matter: two lists
    with the same elements leave the marker in the same state. *)
Theorem appendNodeList_same_elements (m : NodeTransactionMarker.t)
    (l l' : list h512) :
  (forall p, p ∈ l <-> p ∈ l') ->
  NodeTransactionMarker.appendNodeListContainTransaction l m
  = NodeTransactionMarker.appendNodeListContainTransaction l' m.
Proof.
  intros Hsame. apply marker_eq. rewrite !appendNodeList_nodes.
  f_equal. apply set_eq. intros p. rewrite !elem_of_list_to_set. apply Hsame.
Qed.

Lemma appendNodeList_same_elements_witness :
  NodeTransactionMarker.appendNodeListContainTransaction [1; 2; 1]
    NodeTransactionMarker.new
  = NodeTransactionMarker.appendNodeListContainTransaction [2; 1]
      NodeTransactionMarker.new.
Proof.
  apply (appendNodeList_same_elements NodeTransactionMarker.new [1; 2; 1] [2; 1]).
  intros p. rewrite !elem_of_cons, !elem_of_nil. tauto.
Defined.

(** X16: single insertions can be swapped, and a repeated insertion is a
    single one. *)
Theorem appendNode_commutes_and_is_idempotent (m : NodeTransactionMarker.t)
    (p q : h512) :
  NodeTransactionMarker.appendNodeContainsTransaction p
    (NodeTransactionMarker.appendNodeContainsTransaction q m)
  = NodeTransactionMarker.appendNodeContainsTransaction q
      (NodeTransactionMarker.appendNodeContainsTransaction p m)
  /\ NodeTransactionMarker.appendNodeContainsTransaction p
       (NodeTransactionMarker.appendNodeContainsTransaction p m)
     = NodeTransactionMarker.appendNodeContainsTransaction p m.
Proof.
  split; apply marker_eq; simpl; unfold NodeTransactionMarker.set_insert.
  - apply set_eq. intros x. rewrite !elem_of_union. tauto.
  - apply set_eq. intros x. rewrite !elem_of_union. tauto.
Qed.

(** X17: the two queries agree: [isKnownBySomeone] answers true exactly
    when [isTheNodeContainsTransaction] answers true for some peer. *)
Theorem isKnownBySomeone_iff_some_node (m : NodeTransactionMarker.t) :
  NodeTransactionMarker.isKnownBySomeone m = true
  <-> exists p, NodeTransactionMarker.isTheNodeContainsTransaction p m = true.
Proof.
  rewrite isKnownBySomeone_nonempty. split.
  - intros Hne. destruct (set_choose_L _ Hne) as [p Hp].
    exists p. apply isTheNodeContainsTransaction_elem. exact Hp.
  - intros [p Hp]. apply isTheNodeContainsTransaction_elem in Hp.
    intros Hempty. rewrite Hempty in Hp. apply (not_elem_of_empty p Hp).
Qed.

(** X18: a fresh marker and a cleared marker know no peer; after a clear and
    one insertion the marker knows that peer and no other; after any
    insertion somebody is known. *)
Theorem marker_clear_forgets_everyone (m : NodeTransactionMarker.t) (p q : h512)
    (l : list h512) :
  NodeTransactionMarker.isTheNodeContainsTransaction q NodeTransactionMarker.new
  = false
  /\ NodeTransactionMarker.isTheNodeContainsTransaction q
       (NodeTransactionMarker.clear m) = false
  /\ (NodeTransactionMarker.isTheNodeContainsTransaction q
        (NodeTransactionMarker.appendNodeContainsTransaction p
           (NodeTransactionMarker.clear m)) = true <-> q = p)
  /\ NodeTransactionMarker.isKnownBySomeone
       (NodeTransactionMarker.appendNodeContainsTransaction p m) = true
  /\ NodeTransactionMarker.isKnownBySomeone
       (NodeTransactionMarker.appendNodeListContainTransaction l m)
     = negb (bool_decide (l = [])) || NodeTransactionMarker.isKnownBySomeone m.
Proof.
  assert (Hnone : forall s, s = (∅ : gset h512) ->
            NodeTransactionMarker.isTheNodeContainsTransaction q
              (NodeTransactionMarker.mk s) = false).
  { intros s ->. apply not_true_iff_false.
    rewrite isTheNodeContainsTransaction_elem. simpl. apply not_elem_of_empty. }
  split; [|split; [|split; [|split]]].
  - apply Hnone. reflexivity.
  - apply Hnone. reflexivity.
  - rewrite isTheNodeContainsTransaction_elem. simpl.
    unfold NodeTransactionMarker.set_insert.
    rewrite elem_of_union, elem_of_singleton. split; [|auto].
    intros [H | H]; [exact H | destruct (not_elem_of_empty q H)].
  - apply isKnownBySomeone_nonempty. simpl.
    unfold NodeTransactionMarker.set_insert. intros H.
    apply (not_elem_of_empty (C:=gset h512) p). rewrite <- H.
    apply elem_of_union_l, elem_of_singleton. reflexivity.
  - apply eq_true_iff_eq.
    rewrite orb_true_iff, negb_true_iff, bool_decide_eq_false.
    rewrite !isKnownBySomeone_nonempty, appendNodeList_nodes. split.
    + intros Hne. destruct l as [|n l]; [right|left; discriminate].
      intros H. apply Hne. rewrite H. simpl. apply (left_id_L ∅ (∪)).
    + intros [Hl | Hm] H.
      * destruct l as [|n l]; [contradiction|].
        apply (not_elem_of_empty (C:=gset h512) n). rewrite <- H.
        apply elem_of_union_l, elem_of_list_to_set. left.
      * apply Hm. apply set_eq. intros x. split.
        -- intros Hx. rewrite <- H. apply elem_of_union_r, Hx.
        -- intros Hx. destruct (not_elem_of_empty x Hx).
Qed.

(** ** The marker owned by a transaction, and [capacity] *)

Lemma run_setter_marker (s : Setter) (t : Transaction) :
  m_nodeTransactionMarker (run_setter s t) = m_nodeTransactionMarker t.
Proof. destruct s; reflexivity. Qed.

Lemma int64_of_small_sum (a b c : Z) :
  (0 <= a)%Z -> (0 <= b)%Z -> (0 <= c)%Z -> (a + b + c < 2 ^ 63)%Z ->
  to_int64 (size_t_add (size_t_add a b) c) = (a + b + c)%Z.
Proof.
  intros Ha Hb Hc Hsum. unfold to_int64, size_t_add.
  change (2 ^ 64)%Z with 18446744073709551616%Z in *.
  change (2 ^ 63)%Z with 9223372036854775808%Z in *.
  rewrite (Z.mod_small (a + b)) by lia.
  rewrite !(Z.mod_small (a + b + c)) by lia.
  destruct (Z.ltb_spec (a + b + c) 9223372036854775808); [reflexivity | lia].
Qed.

Lemma vector_size_nonneg (b : bytes) : (0 <= vector_size b)%Z.
Proof. unfold vector_size. lia. Qed.

(** X19: the marker operations of a transaction act on its marker and on
    nothing else.  After the insertion of [p] the transaction answers true
    for [p] and for the peers it knew, and for no other; after the insertion
    of a list likewise for the peers of the list; after
    [clearNodeTransactionMarker] it knows nobody; and putting the old marker
    back gives the transaction as it was. *)
Theorem Transaction_marker_operations (t : Transaction) (p q : h512)
    (l : list h512) :
  (isTheNodeContainsTransaction q (appendNodeContainsTransaction p t) = true
   <-> q = p \/ isTheNodeContainsTransaction q t = true)
  /\ (isTheNodeContainsTransaction q (appendNodeListContainTransaction l t) = true
      <-> q ∈ l \/ isTheNodeContainsTransaction q t = true)
  /\ isKnownBySomeone (appendNodeContainsTransaction p t) = true
  /\ isTheNodeContainsTransaction q (clearNodeTransactionMarker t) = false
  /\ isKnownBySomeone (clearNodeTransactionMarker t) = false
  /\ with_m_nodeTransactionMarker (m_nodeTransactionMarker t)
       (appendNodeContainsTransaction p t) = t
  /\ with_m_nodeTransactionMarker (m_nodeTransactionMarker t)
       (appendNodeListContainTransaction l t) = t
  /\ with_m_nodeTransactionMarker (m_nodeTransactionMarker t)
       (clearNodeTransactionMarker t) = t.
Proof.
  unfold isTheNodeContainsTransaction, isKnownBySomeone.
  split; [|split; [|split; [|split; [|split]]]].
  - simpl. rewrite !isTheNodeContainsTransaction_elem. simpl.
    unfold NodeTransactionMarker.set_insert.
    rewrite elem_of_union, elem_of_singleton. reflexivity.
  - simpl. rewrite !isTheNodeContainsTransaction_elem, appendNodeList_nodes.
    rewrite elem_of_union, elem_of_list_to_set. reflexivity.
  - simpl. apply isKnownBySomeone_nonempty. simpl.
    unfold NodeTransactionMarker.set_insert. intros H.
    apply (not_elem_of_empty (C:=gset h512) p). rewrite <- H.
    apply elem_of_union_l, elem_of_singleton. reflexivity.
  - simpl. apply not_true_iff_false.
    rewrite isTheNodeContainsTransaction_elem. simpl. apply not_elem_of_empty.
  - reflexivity.
  - destruct t; repeat split.
Qed.

(** X20: no setter touches the marker: after any of the seven setters,
    [updateSignature], [forceSender], [setImportTime], [setRpcTx] or
    [setSynced] the transaction answers both marker queries as before. *)
Theorem setters_keep_marker :
  (forall s, keeps_marker (run_setter s))
  /\ (forall x, keeps_marker (updateSignature x))
  /\ (forall x, keeps_marker (forceSender x))
  /\ (forall x, keeps_marker (setImportTime x))
  /\ (forall x, keeps_marker (setRpcTx x))
  /\ (forall x, keeps_marker (setSynced x)).
Proof.
  split; [|repeat split].
  intros s t. unfold isTheNodeContainsTransaction, isKnownBySomeone.
  rewrite run_setter_marker. split; reflexivity.
Qed.

(** X21: [capacity] is the number of bytes of the payload, the cached buffer
    and the extra data.  As long as that sum is below 2^63 the result is the
    exact sum, hence not negative, and a setter that keeps the payload
    lowers it by the size of the buffer it drops. *)
Theorem capacity_counts_bytes (t : Transaction) :
  (vector_size (m_data t) + vector_size (m_rlpBuffer t)
   + vector_size (m_extraData t) < 2 ^ 63)%Z ->
  capacity t = (vector_size (m_data t) + vector_size (m_rlpBuffer t)
                + vector_size (m_extraData t))%Z
  /\ (0 <= capacity t)%Z
  /\ (forall s, m_data (run_setter s t) = m_data t ->
        capacity (run_setter s t)
        = (capacity t - vector_size (m_rlpBuffer t))%Z).
Proof.
  intros Hsum.
  pose proof (vector_size_nonneg (m_data t)) as Hd.
  pose proof (vector_size_nonneg (m_rlpBuffer t)) as Hb.
  pose proof (vector_size_nonneg (m_extraData t)) as He.
  assert (Hcap : capacity t = (vector_size (m_data t)
            + vector_size (m_rlpBuffer t) + vector_size (m_extraData t))%Z).
  { unfold capacity. apply int64_of_small_sum; assumption. }
  split; [exact Hcap|]. split; [lia|].
  intros s Hdata. rewrite Hcap. unfold capacity. rewrite Hdata.
  destruct (run_setter_drops_caches s t) as [_ ->].
  replace (m_extraData (run_setter s t)) with (m_extraData t)
    by (destruct s; reflexivity).
  rewrite int64_of_small_sum; unfold vector_size in *; simpl; lia.
Qed.

Lemma capacity_counts_bytes_witness :
  capacity example_cached_tx = 3%Z
  /\ capacity (setNonce 7 example_cached_tx) = 1%Z.
Proof.
  destruct (capacity_counts_bytes example_cached_tx) as (Hcap & _ & Hset).
  - vm_compute. reflexivity.
  - split; [exact Hcap|].
    change (capacity (run_setter (SetNonce 7) example_cached_tx) = 1%Z).
    rewrite (Hset (SetNonce 7) eq_refl), Hcap. reflexivity.
Defined.

(** X22: equal transactions answer the kind queries alike: if [a == c] then
    [a] is non-null exactly when [c] is, and [a] is a contract creation
    exactly when [c] is. *)
Theorem equal_transactions_same_kind (a c : Transaction) :
  Transaction_eq a c = true ->
  Transaction_bool a = Transaction_bool c /\ isCreation a = isCreation c.
Proof.
  intros Heq. apply Transaction_eq_true in Heq. destruct Heq as (Hty & _).
  unfold Transaction_bool, isCreation. rewrite Hty. split; reflexivity.
Qed.

Lemma equal_transactions_same_kind_witness :
  Transaction_bool (Transaction_create 5 1 21000 [Byte.x60] 0 1 1)
  = Transaction_bool (Transaction_create 5 2 90000 [Byte.x60] 8 1 2)
  /\ isCreation (Transaction_create 5 1 21000 [Byte.x60] 0 1 1)
     = isCreation (Transaction_create 5 2 90000 [Byte.x60] 8 1 2).
Proof.
  apply (equal_transactions_same_kind
           (Transaction_create 5 1 21000 [Byte.x60] 0 1 1)
           (Transaction_create 5 2 90000 [Byte.x60] 8 1 2)).
  reflexivity.
Defined.
